(** * Promotion service: a shallow embedding of [promotionService_codingTest.ts]

    The TypeScript program prices a shopping cart by running a list of
    promotion formulas over it.  Every [number] of the program is an IEEE 754
    binary64 value, so the embedding uses Rocq's primitive floats, whose
    operations are the ones the JavaScript engine performs: [+], [-], [*], [/]
    round to nearest-even, [>=] is false on NaN, and there are two zeros. *)

From Stdlib Require Import Floats List String Bool ZArith Permutation Lia.
Import ListNotations.

Set Warnings "-inexact-float".

Local Open Scope string_scope.
Local Open Scope float_scope.

(** ** JavaScript primitives the program relies on *)

Module Js.

(** [Array.prototype.reduce(callback, initialValue)]: the accumulator starts
    at [initialValue] and the elements are visited from index 0 upwards. *)
Definition reduce {A B : Type} (callback : B -> A -> B) (initialValue : B)
    (array : list A) : B :=
  fold_left callback array initialValue.

(** [Array.prototype.find(predicate)]: the first element that satisfies the
    predicate, [undefined] ([None]) when there is none. *)
Definition find {A : Type} (predicate : A -> bool) (array : list A) : option A :=
  List.find predicate array.

(** [a >= b] on numbers. *)
Definition geb (a b : float) : bool := PrimFloat.leb b a.

(** What a property read on an object of declared type
    [Record<string, number>] can produce at run time: nothing, a number of
    the table, or a member inherited from [Object.prototype] (a function, or
    the prototype itself for [__proto__]). *)
Inductive value : Type :=
| Undefined
| Number (n : float)
| Inherited.

(** The property names every object literal inherits from
    [Object.prototype]. *)
Definition Object_prototype : list string :=
  [ "constructor"; "hasOwnProperty"; "isPrototypeOf"; "propertyIsEnumerable";
    "toLocaleString"; "toString"; "valueOf"; "__proto__";
    "__defineGetter__"; "__defineSetter__";
    "__lookupGetter__"; "__lookupSetter__" ]%string.

(** The own properties of an object literal, in source order. *)
Definition object : Type := list (string * float).

Fixpoint own (o : object) (key : string) : option float :=
  match o with
  | [] => None
  | (k, v) :: rest => if String.eqb k key then Some v else own rest key
  end.

Definition inherited (key : string) : bool :=
  existsb (String.eqb key) Object_prototype.

(** [o[key]]: own properties first, then the prototype chain. *)
Definition get (o : object) (key : string) : value :=
  match own o key with
  | Some v => Number v
  | None => if inherited key then Inherited else Undefined
  end.

(** ToBoolean: [undefined], [0], [-0] and [NaN] are falsy, objects are
    truthy. *)
Definition truthy (v : value) : bool :=
  match v with
  | Undefined => false
  | Number n => negb (PrimFloat.eqb n 0 || PrimFloat.is_nan n)
  | Inherited => true
  end.

(** [a || b]. *)
Definition or (a b : value) : value := if truthy a then a else b.

(** [s || ''] on an optional string: an absent and an empty string are both
    falsy. *)
Definition string_or_empty (s : option string) : string :=
  match s with
  | Some (String c rest) => String c rest
  | Some EmptyString => EmptyString
  | None => EmptyString
  end.

(** ToNumber, applied by [/] to its operands: a function or a plain object
    converts to NaN. *)
Definition ToNumber (v : value) : float :=
  match v with
  | Undefined => nan
  | Number n => n
  | Inherited => nan
  end.

End Js.

(** ** Data model *)

Record CartItem : Type := {
  productId : string;
  name : string;
  price : float;
  quantity : float
}.

Record Cart : Type := {
  items : list CartItem;
  promoCode : option string
}.

(** [interface PromotionFormula { process(cart: Cart): number }] *)
Record PromotionFormula : Type := {
  process : Cart -> float
}.

(** ** The three formulas *)

Module CartTotalFormula.

(** The [const total] of [process]. *)
Definition total (cart : Cart) : float :=
  Js.reduce (fun sum item => sum + price item * quantity item) 0 (items cart).

Definition process (threshold discountPercent : float) (cart : Cart) : float :=
  let total := Js.reduce (fun sum item => sum + price item * quantity item) 0 (items cart) in
  if Js.geb total threshold then total * (discountPercent / 100) else 0.

Definition new (threshold discountPercent : float) : PromotionFormula :=
  Build_PromotionFormula (process threshold discountPercent).

End CartTotalFormula.

Module ProductFormula.

Definition process (productId' : string) (fixedDiscount : float) (cart : Cart) : float :=
  let item := Js.find (fun item => String.eqb (productId item) productId') (items cart) in
  match item with
  | Some item => fixedDiscount * quantity item
  | None => 0
  end.

Definition new (productId' : string) (fixedDiscount : float) : PromotionFormula :=
  Build_PromotionFormula (process productId' fixedDiscount).

End ProductFormula.

Module PromoCodeFormula.

(** The private field [promoCodes], initialised by the class body. *)
Definition promoCodes : Js.object :=
  [ ("SUMMER10"%string, 10); ("VIP20"%string, 20) ].

(** The [const percent] of [process]: a number, or an inherited member that
    the [|| 0] lets through. *)
Definition percent (cart : Cart) : Js.value :=
  Js.or (Js.get promoCodes (Js.string_or_empty (promoCode cart))) (Js.Number 0).

(** The [const total] of [process]. *)
Definition total (cart : Cart) : float :=
  Js.reduce (fun sum item => sum + price item * quantity item) 0 (items cart).

Definition process (cart : Cart) : float :=
  let percent := Js.or (Js.get promoCodes (Js.string_or_empty (promoCode cart))) (Js.Number 0) in
  let total := Js.reduce (fun sum item => sum + price item * quantity item) 0 (items cart) in
  total * (Js.ToNumber percent / 100).

Definition new : PromotionFormula := Build_PromotionFormula process.

End PromoCodeFormula.

(** ** The processor *)

Record Result : Type := {
  total : float;
  discount : float;
  final : float
}.

Module PromotionProcessor.

Definition discountCalculation (Formulas : list PromotionFormula) (cart : Cart) : float :=
  Js.reduce (fun sum Formula => sum + process Formula cart) 0 Formulas.

Definition processDiscount (Formulas : list PromotionFormula) (cart : Cart) : Result :=
  let total := Js.reduce (fun sum item => sum + price item * quantity item) 0 (items cart) in
  let discount := discountCalculation Formulas cart in
  {| total := total; discount := discount; final := total - discount |}.

End PromotionProcessor.

(** ** The sample wiring at the end of the file *)

Definition cart : Cart :=
  {| items :=
       [ {| productId := "A1"; name := "Shoes"; price := 100; quantity := 2 |};
         {| productId := "B2"; name := "Hat"; price := 50; quantity := 1 |} ];
     promoCode := Some "VIP20"%string |}.

Definition Formulas : list PromotionFormula :=
  [ CartTotalFormula.new 150 5;
    ProductFormula.new "A1" 10;
    PromoCodeFormula.new ].

Definition result : Result := PromotionProcessor.processDiscount Formulas cart.

(** ** Further carts, for the examples below *)

Definition hat : CartItem :=
  {| productId := "B2"; name := "Hat"; price := 50; quantity := 1 |}.

Definition shoes (quantity' : float) : CartItem :=
  {| productId := "A1"; name := "Shoes"; price := 100; quantity := quantity' |}.

(** The product A1 twice, after a hat. *)
Definition cart_duplicate_A1 : Cart :=
  {| items := [ hat; shoes 2; shoes 7 ]; promoCode := None |}.

Definition cart_hat_only : Cart :=
  {| items := [ hat ]; promoCode := None |}.

(** The sample cart with other names and every price set to 1. *)
Definition cart_repriced : Cart :=
  {| items :=
       [ {| productId := "A1"; name := "Laces"; price := 1; quantity := 2 |};
         {| productId := "B2"; name := "Cap"; price := 1; quantity := 1 |} ];
     promoCode := Some "VIP20"%string |}.

(** One sock at 1. *)
Definition cart_sock : Cart :=
  {| items := [ {| productId := "A1"; name := "Sock"; price := 1; quantity := 1 |} ];
     promoCode := None |}.

(** Ten items at 1e308 each: the cart total overflows to infinity. *)
Definition cart_overflow : Cart :=
  {| items := [ {| productId := "A1"; name := "Shoes"; price := 1e308; quantity := 10 |} ];
     promoCode := None |}.

(** The sample cart with a made-up code, and with a code that names a
    method every object has. *)
Definition cart_unknown_code : Cart :=
  {| items := items cart; promoCode := Some "NOPE"%string |}.

Definition cart_toString_code : Cart :=
  {| items := items cart; promoCode := Some "toString"%string |}.

(** One item at 3. *)
Definition cart_three : Cart :=
  {| items := [ {| productId := "A1"; name := "Sock"; price := 3; quantity := 1 |} ];
     promoCode := None |}.

(** Three items at 0.1, 0.2 and 0.3, and the same items in reverse order. *)
Definition coin (productId' : string) (price' : float) : CartItem :=
  {| productId := productId'; name := "Coin"; price := price'; quantity := 1 |}.

Definition cart_coins : Cart :=
  {| items := [ coin "C1" 0.1; coin "C2" 0.2; coin "C3" 0.3 ]; promoCode := None |}.

Definition cart_coins_reversed : Cart :=
  {| items := [ coin "C3" 0.3; coin "C2" 0.2; coin "C1" 0.1 ]; promoCode := None |}.

(** The sample cart with its two items swapped. *)
Definition cart_swapped : Cart :=
  {| items := [ hat; shoes 2 ]; promoCode := Some "VIP20"%string |}.

(** ** The sums the specification writes with a capital sigma

    The sum of a sequence of numbers is accumulated from 0, one term after the
    other in sequence order; each addition rounds. *)

Module Spec.

Fixpoint Sigma_from (acc : float) (terms : list float) : float :=
  match terms with
  | [] => acc
  | t :: rest => Sigma_from (acc + t) rest
  end.

Definition Sigma (terms : list float) : float := Sigma_from 0 terms.

(** The term a cart item contributes to the cart total. *)
Definition lineAmount (item : CartItem) : float := price item * quantity item.

(** [Σ price×quantity] over the items of a cart. *)
Definition cartTotal (cart : Cart) : float := Sigma (map lineAmount (items cart)).

End Spec.

(** ** Numbers that are integers

    A [number] holds every integer from 0 to 2^53 - 1 exactly (the
    non-negative safe integers of JavaScript).  Amounts kept in such numbers,
    prices in cents for instance, can be added and multiplied without
    rounding as long as the results stay in that range. *)

Module Exact.

Local Open Scope Z_scope.

(** The binary64 number nearest to an integer: what the conversion of an
    integer to a float yields. *)
Definition Z2SF (z : Z) : spec_float := binary_normalize prec emax z 0 false.

Definition of_Z (z : Z) : float := SF2Prim (Z2SF z).

(** The integer part of a number (0 for infinities and NaN). *)
Definition to_Z (x : float) : Z :=
  match Prim2SF x with
  | S754_finite s m e =>
      cond_Zopp s (if 0 <=? e then Zpos m * 2 ^ e else Zpos m / 2 ^ (- e))
  | _ => 0
  end.

(** [Number.isSafeInteger(x) && x >= 0], the negative zero left out. *)
Definition is_safe_natural (x : float) : bool :=
  (0 <=? to_Z x) && (to_Z x <? 2 ^ 53) && PrimFloat.Leibniz.eqb x (of_Z (to_Z x)).

Definition integral (item : CartItem) : bool :=
  is_safe_natural (price item) && is_safe_natural (quantity item).

(** The cart total in exact integer arithmetic. *)
Definition exact_amount (item : CartItem) : Z :=
  to_Z (price item) * to_Z (quantity item).

Fixpoint exact_total (array : list CartItem) : Z :=
  match array with
  | [] => 0
  | item :: rest => exact_amount item + exact_total rest
  end.

(** The representation of a positive integer below 2^53: a mantissa of 53
    bits and the exponent that goes with it. *)
Definition canon (c : Z) : spec_float :=
  S754_finite false (Z.to_pos (c * 2 ^ (52 - Z.log2 c))) (Z.log2 c - 52).

End Exact.

(** ** Carts for the edge cases *)

(** A hat, and a pair of shoes whose price is not a number. *)
Definition cart_nan_price : Cart :=
  {| items := [ hat; {| productId := "A1"; name := "Shoes"; price := nan; quantity := 1 |} ];
     promoCode := None |}.

(** No item, and the promo code VIP20. *)
Definition cart_empty : Cart :=
  {| items := []; promoCode := Some "VIP20"%string |}.

(** The sample cart under other product ids and names. *)
Definition cart_renamed : Cart :=
  {| items :=
       [ {| productId := "Z9"; name := "Boots"; price := 100; quantity := 2 |};
         {| productId := "Y8"; name := "Scarf"; price := 50; quantity := 1 |} ];
     promoCode := Some "VIP20"%string |}.

(** * Facts about binary64 arithmetic *)

Module FloatFacts.

(** Subtracting zero changes nothing, whatever the number. *)
Lemma sub_0_r (x : float) : x - 0 = x.
Proof.
  apply Prim2SF_inj. rewrite sub_spec.
  change (Prim2SF 0) with (S754_zero false).
  destruct (Prim2SF x) as [[|]| [|] | |[|] m e]; reflexivity.
Qed.

Lemma SFeqb_finite_refl (s : bool) (m : positive) (e : Z) :
  SFeqb (S754_finite s m e) (S754_finite s m e) = true.
Proof.
  unfold SFeqb, SFcompare.
  rewrite Z.compare_refl, (Pos.compare_cont_refl m Eq). destruct s; reflexivity.
Qed.

(** Two numbers that compare equal pass [<=], in either order. *)
Lemma leb_of_eqb (x y : float) : (x =? y) = true -> (y <=? x) = true.
Proof.
  rewrite FloatAxioms.eqb_spec, leb_spec. unfold SFeqb, SFleb.
  destruct (Prim2SF x) as [sx|sx| |sx mx ex];
    destruct (Prim2SF y) as [sy|sy| |sy my ey]; simpl; try discriminate;
    try reflexivity; try (destruct sx; discriminate); try (destruct sy; discriminate).
  - destruct sx, sy; try discriminate; reflexivity.
  - change (PosDef.Pos.compare_cont Eq my mx) with (Pos.compare_cont Eq my mx).
    change (PosDef.Pos.compare_cont Eq mx my) with (Pos.compare_cont Eq mx my).
    pose proof (Pos.compare_cont_antisym mx my Eq) as Hm. cbn [CompOpp] in Hm.
    rewrite (Z.compare_antisym ex ey), <- Hm.
    destruct sx, sy; try discriminate;
      destruct (ex ?= ey)%Z; simpl; try discriminate;
      destruct (Pos.compare_cont Eq mx my); simpl; try discriminate; reflexivity.
Qed.

(** The class of a finite number. *)
Lemma is_finite_spec (x : float) :
  is_finite x = true ->
  (exists s, Prim2SF x = S754_zero s) \/ (exists s m e, Prim2SF x = S754_finite s m e).
Proof.
  unfold is_finite, is_nan, is_infinity.
  rewrite !FloatAxioms.eqb_spec, abs_spec.
  change (Prim2SF infinity) with (S754_infinity false).
  destruct (Prim2SF x) as [s|[|]| |s m e]; cbn; try discriminate; eauto 6.
Qed.

(** Zero percent of a finite amount is a zero. *)
Lemma mul_0_percent (x : float) :
  is_finite x = true -> x * (0 / 100) = 0 \/ x * (0 / 100) = -0.
Proof.
  intros H. change (0 / 100) with 0.
  destruct (is_finite_spec x H) as [[s E]|(s & m & e & E)].
  - destruct s; [right|left]; apply Prim2SF_inj; rewrite mul_spec, E; reflexivity.
  - destruct s; [right|left]; apply Prim2SF_inj; rewrite mul_spec, E; reflexivity.
Qed.

(** Zero percent of an infinite amount, or of NaN, is NaN. *)
Lemma mul_0_percent_not_finite (x : float) :
  is_finite x = false -> x * (0 / 100) = nan.
Proof.
  unfold is_finite, is_nan, is_infinity.
  rewrite !FloatAxioms.eqb_spec, abs_spec.
  change (Prim2SF infinity) with (S754_infinity false).
  change (0 / 100) with 0. intros H.
  apply Prim2SF_inj. rewrite mul_spec. revert H.
  destruct (Prim2SF x) as [s|[|]| |s m e]; try reflexivity.
  - cbn. discriminate.
  - rewrite SFeqb_finite_refl. cbn. discriminate.
Qed.

End FloatFacts.

(** * The processor and its totals *)

Section Reduce.

Context {A : Type} (term : A -> float).

(** A [reduce] that adds one term per element is the sigma of the terms,
    whatever the accumulator starts from. *)
Lemma reduce_Sigma_from (array : list A) (acc : float) :
  Js.reduce (fun sum a => sum + term a) acc array = Spec.Sigma_from acc (map term array).
Proof.
  unfold Js.reduce. revert acc.
  induction array as [|a rest IH]; intros acc; simpl; [reflexivity | apply IH].
Qed.

Lemma reduce_Sigma (array : list A) :
  Js.reduce (fun sum a => sum + term a) 0 array = Spec.Sigma (map term array).
Proof. apply reduce_Sigma_from. Qed.

End Reduce.

Lemma processor_total (Formulas : list PromotionFormula) (cart : Cart) :
  total (PromotionProcessor.processDiscount Formulas cart) = Spec.cartTotal cart.
Proof. apply (reduce_Sigma Spec.lineAmount). Qed.

(** C1.  For every rule list and every cart, [processDiscount] returns a
    triple whose [total] is the sum of price×quantity over the cart's items
    (accumulated from 0 in item order), whose [discount] is
    [discountCalculation cart], and whose [final] is [total - discount]. *)
Theorem C1_processDiscount_triple (Formulas : list PromotionFormula) (cart : Cart) :
  let r := PromotionProcessor.processDiscount Formulas cart in
  total r = Spec.Sigma (map (fun item => price item * quantity item) (items cart))
  /\ discount r = PromotionProcessor.discountCalculation Formulas cart
  /\ final r = total r - discount r.
Proof.
  cbv zeta. split; [apply (processor_total Formulas cart) | split; reflexivity].
Qed.

(** C2.  On the sample cart (two A1 at 100, one B2 at 50, promo code VIP20)
    with the sample rules (5% from 150 up, 10 off per A1, the promo-code
    table) the threshold rule contributes 12.5, the per-product rule 20, the
    promo-code rule 50, and [processDiscount] returns total 250, discount 82.5
    and final 167.5. *)
Theorem C2_sample_scenario :
  items cart
  = [ {| productId := "A1"; name := "Shoes"; price := 100; quantity := 2 |};
      {| productId := "B2"; name := "Hat"; price := 50; quantity := 1 |} ]
  /\ promoCode cart = Some "VIP20"%string
  /\ Formulas
     = [ CartTotalFormula.new 150 5; ProductFormula.new "A1" 10; PromoCodeFormula.new ]
  /\ map (fun Formula => process Formula cart) Formulas = [12.5; 20; 50]
  /\ PromoCodeFormula.promoCodes = [("SUMMER10"%string, 10); ("VIP20"%string, 20)]
  /\ PromotionProcessor.processDiscount Formulas cart
     = {| total := 250; discount := 82.5; final := 167.5 |}.
Proof. repeat split. Qed.

(** C3.  For every cart and every rule list, of any length,
    [discountCalculation] is the sum of [rule.process(cart)] over the rules in
    configured order; with no rule at all the discount is 0 and the final
    price is the total. *)
Theorem C3_discount_is_sum_of_rules (Formulas : list PromotionFormula) (cart : Cart) :
  PromotionProcessor.discountCalculation Formulas cart
    = Spec.Sigma (map (fun Formula => process Formula cart) Formulas)
  /\ PromotionProcessor.discountCalculation [] cart = 0
  /\ discount (PromotionProcessor.processDiscount [] cart) = 0
  /\ final (PromotionProcessor.processDiscount [] cart)
     = total (PromotionProcessor.processDiscount [] cart).
Proof.
  split; [apply (reduce_Sigma (fun Formula => process Formula cart)) |].
  repeat split. apply FloatFacts.sub_0_r.
Qed.

(** * The threshold rule *)

Lemma CartTotalFormula_total_spec (cart : Cart) :
  CartTotalFormula.total cart = Spec.cartTotal cart.
Proof. apply (reduce_Sigma Spec.lineAmount). Qed.

Lemma CartTotalFormula_process_unfold (threshold discountPercent : float) (cart : Cart) :
  CartTotalFormula.process threshold discountPercent cart
  = if Js.geb (Spec.cartTotal cart) threshold
    then Spec.cartTotal cart * (discountPercent / 100)
    else 0.
Proof.
  unfold CartTotalFormula.process.
  change (Js.reduce _ 0 (items cart)) with (CartTotalFormula.total cart).
  now rewrite CartTotalFormula_total_spec.
Qed.

(** C4.  For every cart, the threshold rule computes [cartTotal] as the sum of
    price×quantity over all items and returns [cartTotal × (discountPercent /
    100)] (the quotient is formed first, as in the source) when [cartTotal >=
    threshold], and 0 otherwise; the test is inclusive: a cart total equal to
    the threshold ([==] on numbers) qualifies. *)
Theorem C4_threshold_rule (threshold discountPercent : float) (cart : Cart) :
  let cartTotal := Spec.Sigma (map (fun item => price item * quantity item) (items cart)) in
  CartTotalFormula.total cart = cartTotal
  /\ (Js.geb cartTotal threshold = true ->
      CartTotalFormula.process threshold discountPercent cart
      = cartTotal * (discountPercent / 100))
  /\ (Js.geb cartTotal threshold = false ->
      CartTotalFormula.process threshold discountPercent cart = 0)
  /\ ((cartTotal =? threshold) = true ->
      CartTotalFormula.process threshold discountPercent cart
      = cartTotal * (discountPercent / 100)).
Proof.
  cbv zeta. fold Spec.lineAmount. fold (Spec.cartTotal cart).
  rewrite CartTotalFormula_process_unfold.
  split; [apply CartTotalFormula_total_spec |].
  split; [intros -> ; reflexivity |].
  split; [intros -> ; reflexivity |].
  intros E. unfold Js.geb. rewrite (FloatFacts.leb_of_eqb _ _ E). reflexivity.
Qed.

(** The sample cart totals 250: it passes the thresholds 150 and 250 and
    fails the threshold 250.5. *)
Lemma C4_threshold_rule_witness :
  CartTotalFormula.process 150 5 cart = 12.5
  /\ CartTotalFormula.process 250 5 cart = 12.5
  /\ CartTotalFormula.process 250.5 5 cart = 0.
Proof.
  split; [| split].
  - exact (proj1 (proj2 (C4_threshold_rule 150 5 cart)) eq_refl).
  - exact (proj2 (proj2 (proj2 (C4_threshold_rule 250 5 cart))) eq_refl).
  - exact (proj1 (proj2 (proj2 (C4_threshold_rule 250.5 5 cart))) eq_refl).
Defined.

(** The order of the two operations matters to the last bit: 10% of a cart
    total of 3 is 0.30000000000000004 the way the rule computes it, and 0.3
    when the product is formed before the division. *)
Remark CartTotalFormula_quotient_first :
  CartTotalFormula.total cart_three = 3
  /\ CartTotalFormula.process 0 10 cart_three = 0.30000000000000004
  /\ (CartTotalFormula.total cart_three * 10) / 100 = 0.3.
Proof. repeat split. Qed.

(** * The per-product rule *)

Section ProductFormula.

Variable productId' : string.

Lemma find_first (before : list CartItem) (item : CartItem) (after : list CartItem) :
  (forall other, In other before -> productId other <> productId') ->
  productId item = productId' ->
  Js.find (fun item => String.eqb (productId item) productId') (before ++ item :: after)
  = Some item.
Proof.
  intros Hbefore Hitem. unfold Js.find.
  induction before as [|b before IH]; simpl.
  - rewrite Hitem, String.eqb_refl. reflexivity.
  - destruct (String.eqb (productId b) productId') eqn:Eb.
    + apply String.eqb_eq in Eb. exfalso. apply (Hbefore b); [now left | exact Eb].
    + apply IH. intros other Hin. apply Hbefore. now right.
Qed.

Lemma find_none (array : list CartItem) :
  (forall other, In other array -> productId other <> productId') ->
  Js.find (fun item => String.eqb (productId item) productId') array = None.
Proof.
  intros Hnone. unfold Js.find.
  induction array as [|a array IH]; simpl; [reflexivity |].
  destruct (String.eqb (productId a) productId') eqn:Ea.
  - apply String.eqb_eq in Ea. exfalso. apply (Hnone a); [now left | exact Ea].
  - apply IH. intros other Hin. apply Hnone. now right.
Qed.

(** What [find] returns depends on the product ids alone, and the item it
    returns carries the quantity found at that position. *)
Lemma find_quantity (array array' : list CartItem) :
  map (fun item => (productId item, quantity item)) array
  = map (fun item => (productId item, quantity item)) array' ->
  option_map quantity (Js.find (fun item => String.eqb (productId item) productId') array)
  = option_map quantity (Js.find (fun item => String.eqb (productId item) productId') array').
Proof.
  unfold Js.find. revert array'.
  induction array as [|a array IH]; intros [|a' array'] E; simpl in E;
    try discriminate; [reflexivity |].
  injection E as Eid Eq Erest. simpl. rewrite Eid.
  destruct (String.eqb (productId a') productId'); simpl; [now f_equal | now apply IH].
Qed.

End ProductFormula.

(** C6.  For every cart, the per-product rule returns [fixedDiscount ×
    quantity] of the first item whose product id is the configured one,
    whatever follows that item (later items with the same id are not looked
    at), and exactly 0 when no item has that id. *)
Theorem C6_product_rule (productId' : string) (fixedDiscount : float) (cart : Cart) :
  (forall (before : list CartItem) (item : CartItem) (after : list CartItem),
      items cart = (before ++ item :: after)%list ->
      (forall other, In other before -> productId other <> productId') ->
      productId item = productId' ->
      ProductFormula.process productId' fixedDiscount cart = fixedDiscount * quantity item)
  /\ ((forall other, In other (items cart) -> productId other <> productId') ->
      ProductFormula.process productId' fixedDiscount cart = 0).
Proof.
  unfold ProductFormula.process. split.
  - intros before item after E Hbefore Hitem.
    rewrite E, (find_first productId' before item after Hbefore Hitem). reflexivity.
  - intros Hnone. rewrite (find_none productId' (items cart) Hnone). reflexivity.
Qed.

(** A cart with the product A1 twice (quantities 2 and 7) after a hat: the
    rule uses the quantity 2 of the first A1; on a cart without A1 it is 0. *)
Lemma C6_product_rule_witness :
  ProductFormula.process "A1" 10 cart_duplicate_A1 = 10 * 2
  /\ ProductFormula.process "A1" 10 cart_hat_only = 0.
Proof.
  split.
  - refine (proj1 (C6_product_rule "A1" 10 cart_duplicate_A1)
              [hat] (shoes 2) [shoes 7] eq_refl _ eq_refl).
    intros other [<- | []]. simpl. discriminate.
  - refine (proj2 (C6_product_rule "A1" 10 cart_hat_only) _).
    intros other [<- | []]. simpl. discriminate.
Defined.

(** C10.  The per-product rule does not read prices or names: two carts with
    the same promo code and the same sequence of (product id, quantity) pairs
    get the same discount from it, whatever their prices and names.  So the
    discount is not capped by the value of the matched item: it can exceed
    price×quantity of that item. *)
Theorem C10_product_rule_ignores_prices (productId' : string) (fixedDiscount : float) :
  (forall cart1 cart2 : Cart,
      promoCode cart1 = promoCode cart2 ->
      map (fun item => (productId item, quantity item)) (items cart1)
      = map (fun item => (productId item, quantity item)) (items cart2) ->
      ProductFormula.process productId' fixedDiscount cart1
      = ProductFormula.process productId' fixedDiscount cart2)
  /\ (exists (cart0 : Cart) (item : CartItem),
         Js.find (fun item => String.eqb (productId item) "A1") (items cart0) = Some item
         /\ (price item * quantity item <? ProductFormula.process "A1" 10 cart0) = true).
Proof.
  split.
  - intros cart1 cart2 _ E. unfold ProductFormula.process.
    pose proof (find_quantity productId' (items cart1) (items cart2) E) as H.
    cbv zeta.
    destruct (Js.find _ (items cart1)); destruct (Js.find _ (items cart2));
      simpl in H; try discriminate; [|reflexivity].
    injection H as ->. reflexivity.
  - exists cart_sock. eexists. split; reflexivity.
Qed.

(** The sample cart with every price set to 1 and every name changed gets the
    same 20 off as the sample cart. *)
Lemma C10_product_rule_ignores_prices_witness :
  ProductFormula.process "A1" 10 cart = ProductFormula.process "A1" 10 cart_repriced.
Proof.
  exact (proj1 (C10_product_rule_ignores_prices "A1" 10) cart cart_repriced eq_refl eq_refl).
Defined.

(** * No clamping *)

(** C7.  The processor does not clamp: there are a cart and a rule list whose
    discounts add up to more than the cart total, and [processDiscount] then
    returns a negative final price; so [discount <= total] is not an invariant
    of the processor. *)
Theorem C7_no_clamping :
  (exists (Formulas0 : list PromotionFormula) (cart0 : Cart),
      let r := PromotionProcessor.processDiscount Formulas0 cart0 in
      discount r = Spec.Sigma (map (fun Formula => process Formula cart0) Formulas0)
      /\ (total r <? discount r) = true
      /\ (final r <? 0) = true)
  /\ ~ (forall (Formulas0 : list PromotionFormula) (cart0 : Cart),
           let r := PromotionProcessor.processDiscount Formulas0 cart0 in
           (discount r <=? total r) = true).
Proof.
  split.
  - exists [ProductFormula.new "A1" 10], cart_sock. repeat split.
  - intros H. specialize (H [ProductFormula.new "A1" 10] cart_sock). discriminate H.
Qed.

(** * One cart total, computed three times *)

(** C8.  The cart total the processor computes, the one the threshold rule
    computes and tests, and the one the promo-code rule computes and scales
    are the same number, for every cart. *)
Theorem C8_totals_agree (Formulas : list PromotionFormula) (cart : Cart)
    (threshold discountPercent : float) :
  let engineTotal := total (PromotionProcessor.processDiscount Formulas cart) in
  CartTotalFormula.total cart = engineTotal
  /\ PromoCodeFormula.total cart = engineTotal
  /\ CartTotalFormula.process threshold discountPercent cart
     = (if Js.geb engineTotal threshold then engineTotal * (discountPercent / 100) else 0)
  /\ PromoCodeFormula.process cart
     = engineTotal * (Js.ToNumber (PromoCodeFormula.percent cart) / 100).
Proof. repeat split. Qed.

(** * The promo-code rule *)

Lemma PromoCodeFormula_total_spec (cart : Cart) :
  PromoCodeFormula.total cart = Spec.cartTotal cart.
Proof. apply (reduce_Sigma Spec.lineAmount). Qed.

Lemma PromoCodeFormula_process_unfold (cart : Cart) :
  PromoCodeFormula.process cart
  = Spec.cartTotal cart * (Js.ToNumber (PromoCodeFormula.percent cart) / 100).
Proof.
  unfold PromoCodeFormula.process.
  change (Js.reduce _ 0 (items cart)) with (PromoCodeFormula.total cart).
  now rewrite PromoCodeFormula_total_spec.
Qed.

(** The table has two codes, and both percentages are truthy. *)
Lemma promoCodes_own (code : string) (percent : float) :
  Js.own PromoCodeFormula.promoCodes code = Some percent ->
  (code = "SUMMER10"%string /\ percent = 10) \/ (code = "VIP20"%string /\ percent = 20).
Proof.
  unfold PromoCodeFormula.promoCodes, Js.own.
  destruct (String.eqb_spec "SUMMER10" code) as [<-|_];
    [intros [= <-]; now left |].
  destruct (String.eqb_spec "VIP20" code) as [<-|_];
    [intros [= <-]; now right | discriminate].
Qed.

Lemma percent_known (cart : Cart) (percent : float) :
  Js.own PromoCodeFormula.promoCodes (Js.string_or_empty (promoCode cart)) = Some percent ->
  PromoCodeFormula.percent cart = Js.Number percent.
Proof.
  intros H. unfold PromoCodeFormula.percent, Js.get. rewrite H.
  destruct (promoCodes_own _ _ H) as [[_ ->]|[_ ->]]; reflexivity.
Qed.

Lemma percent_unknown (cart : Cart) :
  Js.own PromoCodeFormula.promoCodes (Js.string_or_empty (promoCode cart)) = None ->
  Js.inherited (Js.string_or_empty (promoCode cart)) = false ->
  PromoCodeFormula.percent cart = Js.Number 0.
Proof.
  intros Hown Hproto. unfold PromoCodeFormula.percent, Js.get.
  rewrite Hown, Hproto. reflexivity.
Qed.

(** A code that names a member of [Object.prototype] is not in the table, yet
    the lookup finds the member and the rule returns NaN, on any cart. *)
Lemma percent_inherited (cart : Cart) :
  Js.inherited (Js.string_or_empty (promoCode cart)) = true ->
  PromoCodeFormula.process cart = nan.
Proof.
  intros Hproto. rewrite PromoCodeFormula_process_unfold.
  assert (PromoCodeFormula.percent cart = Js.Inherited) as ->.
  { unfold PromoCodeFormula.percent, Js.get.
    destruct (Js.own _ _) as [percent|] eqn:Hown.
    - destruct (promoCodes_own _ _ Hown) as [[E _]|[E _]];
        rewrite E in Hproto; discriminate Hproto.
    - rewrite Hproto. reflexivity. }
  simpl. apply Prim2SF_inj. rewrite mul_spec.
  change (Prim2SF (nan / 100)) with S754_nan. change (Prim2SF nan) with S754_nan.
  destruct (Prim2SF (Spec.cartTotal cart)); reflexivity.
Qed.

Lemma process_toString_code :
  Js.own PromoCodeFormula.promoCodes "toString" = None
  /\ PromoCodeFormula.process cart_toString_code = nan.
Proof. split; reflexivity. Qed.

(** C5, as amended.  The promo-code rule looks up [cart.promoCode], an absent
    code read as the empty string, in its table, and computes [cartTotal] as
    the sum of price×quantity over all items.  For a code of the table it
    returns [cartTotal × (percent / 100)].  For a code that is neither in the
    table nor the name of a member of [Object.prototype], the percentage is 0
    and the rule returns [cartTotal × (0 / 100)]: a zero when [cartTotal] is
    finite, NaN when it is infinite or NaN. *)
Theorem C5_promo_code_rule (cart : Cart) :
  let code := Js.string_or_empty (promoCode cart) in
  let cartTotal := Spec.Sigma (map (fun item => price item * quantity item) (items cart)) in
  (promoCode cart = None -> code = ""%string)
  /\ PromoCodeFormula.total cart = cartTotal
  /\ (forall percent : float,
         Js.own PromoCodeFormula.promoCodes code = Some percent ->
         PromoCodeFormula.process cart = cartTotal * (percent / 100))
  /\ (Js.own PromoCodeFormula.promoCodes code = None ->
      Js.inherited code = false ->
      PromoCodeFormula.percent cart = Js.Number 0
      /\ PromoCodeFormula.process cart = cartTotal * (0 / 100)
      /\ (is_finite cartTotal = true ->
          PromoCodeFormula.process cart = 0 \/ PromoCodeFormula.process cart = -0)
      /\ (is_finite cartTotal = false -> PromoCodeFormula.process cart = nan)).
Proof.
  cbv zeta. fold Spec.lineAmount. fold (Spec.cartTotal cart).
  rewrite PromoCodeFormula_process_unfold.
  split; [intros ->; reflexivity |].
  split; [apply PromoCodeFormula_total_spec |].
  split.
  - intros percent H. rewrite (percent_known cart percent H). reflexivity.
  - intros Hown Hproto. rewrite (percent_unknown cart Hown Hproto). simpl Js.ToNumber.
    split; [reflexivity |]. split; [reflexivity |]. split.
    + apply FloatFacts.mul_0_percent.
    + apply FloatFacts.mul_0_percent_not_finite.
Qed.

(** On the sample cart the code VIP20 gives 20% of 250, and a made-up code
    gives 0. *)
Lemma C5_promo_code_rule_witness :
  PromoCodeFormula.process cart = Spec.cartTotal cart * (20 / 100)
  /\ (PromoCodeFormula.process cart_unknown_code = 0
      \/ PromoCodeFormula.process cart_unknown_code = -0).
Proof.
  split.
  - exact (proj1 (proj2 (proj2 (C5_promo_code_rule cart))) 20 eq_refl).
  - exact (proj1 (proj2 (proj2
             (proj2 (proj2 (proj2 (C5_promo_code_rule cart_unknown_code))) eq_refl eq_refl)))
             eq_refl).
Defined.

(** C5, as stated, fails: the cart of ten items at 1e308 has no promo code,
    so its code is not in the table, and the rule returns NaN, which is not
    0. *)
Lemma C5_unknown_code_not_always_zero :
  Js.own PromoCodeFormula.promoCodes (Js.string_or_empty (promoCode cart_overflow)) = None
  /\ PromoCodeFormula.process cart_overflow = nan
  /\ ~ (forall cart0 : Cart,
           Js.own PromoCodeFormula.promoCodes (Js.string_or_empty (promoCode cart0)) = None ->
           (PromoCodeFormula.process cart0 =? 0) = true).
Proof.
  split; [reflexivity |]. split; [reflexivity |].
  intros H. specialize (H cart_overflow eq_refl). discriminate H.
Qed.

(** * Item order and the cart total *)

Module ExactFacts.

Import Exact.
Local Open Scope Z_scope.

Lemma digits2_pos_log2 (p : positive) : Zpos (digits2_pos p) = Z.log2 (Zpos p) + 1.
Proof.
  assert (forall q, digits2_pos q = Pos.size q) as S by (induction q; simpl; congruence).
  destruct p; simpl; rewrite ?S; lia.
Qed.

Lemma fexp_small (d : Z) : 1 <= d -> fexp prec emax d = d - 53.
Proof. unfold fexp, emin, prec, emax. lia. Qed.

(** Shifting right a mantissa whose low bits are zero loses nothing. *)
Lemma shr_1_even (z : Z) :
  0 < z -> shr_1 (Build_shr_record (2 * z) false false) = Build_shr_record z false false.
Proof. destruct z as [|p|p]; try lia. reflexivity. Qed.

Lemma iter_shr_1_exact (n : positive) :
  forall (z k : Z), 0 < z -> Zpos n <= k ->
  SpecFloat.iter_pos shr_1 n (Build_shr_record (z * 2 ^ k) false false)
  = Build_shr_record (z * 2 ^ (k - Zpos n)) false false.
Proof.
  assert (step : forall z k, 0 < z -> 1 <= k ->
            shr_1 (Build_shr_record (z * 2 ^ k) false false)
            = Build_shr_record (z * 2 ^ (k - 1)) false false).
  { intros z k Hz Hk. replace (z * 2 ^ k) with (2 * (z * 2 ^ (k - 1))).
    - apply shr_1_even. apply Z.mul_pos_pos; [exact Hz | apply Z.pow_pos_nonneg; lia].
    - replace k with (Z.succ (k - 1)) at 2 by lia. rewrite Z.pow_succ_r by lia. ring. }
  induction n as [n IH|n IH|]; intros z k Hz Hk; cbn [SpecFloat.iter_pos].
  - rewrite step by lia. rewrite IH by lia. rewrite IH by lia. do 2 f_equal. f_equal. lia.
  - rewrite IH by lia. rewrite IH by lia. do 2 f_equal. f_equal. lia.
  - apply step; lia.
Qed.

Lemma Zdigits2_log2 (z : Z) : 0 < z -> Zdigits2 z = Z.log2 z + 1.
Proof. destruct z as [|p|p]; try lia. intros _. apply digits2_pos_log2. Qed.

Lemma log2_bound (c : Z) : 0 < c -> c < 2 ^ 53 -> 0 <= Z.log2 c <= 52.
Proof.
  intros Hc Hlt. split; [apply Z.log2_nonneg |].
  assert (Z.log2 c < 53) by (apply Z.log2_lt_pow2; lia). lia.
Qed.

Lemma shr_fexp_exact (c k : Z) :
  0 < c -> c < 2 ^ 53 -> 52 - Z.log2 c <= k ->
  shr_fexp prec emax (c * 2 ^ k) (- k) loc_Exact
  = (Build_shr_record (c * 2 ^ (52 - Z.log2 c)) false false, Z.log2 c - 52).
Proof.
  intros Hc Hlt Hk. pose proof (log2_bound c Hc Hlt) as Hd.
  assert (0 < c * 2 ^ k) as Hm by (apply Z.mul_pos_pos; [lia | apply Z.pow_pos_nonneg; lia]).
  unfold shr_fexp. rewrite (Zdigits2_log2 _ Hm), Z.log2_mul_pow2 by lia.
  rewrite fexp_small by lia. cbn [shr_record_of_loc]. unfold shr.
  destruct (k + Z.log2 c + 1 + - k - 53 - - k) as [|n|n] eqn:En.
  - assert (k = 52 - Z.log2 c) as -> by lia. f_equal. lia.
  - rewrite iter_shr_1_exact by lia.
    replace (k - Z.pos n) with (52 - Z.log2 c) by lia. f_equal. lia.
  - lia.
Qed.

Lemma round_aux_exact (c k : Z) :
  0 < c -> c < 2 ^ 53 -> 52 - Z.log2 c <= k ->
  binary_round_aux prec emax false (c * 2 ^ k) (- k) loc_Exact = canon c.
Proof.
  intros Hc Hlt Hk. pose proof (log2_bound c Hc Hlt) as Hd.
  unfold binary_round_aux. rewrite shr_fexp_exact by assumption.
  cbn [shr_m loc_of_shr_record round_nearest_even].
  replace (Z.log2 c - 52) with (- (52 - Z.log2 c)) at 1 by lia.
  rewrite shr_fexp_exact by lia. cbn [shr_m].
  assert (0 < c * 2 ^ (52 - Z.log2 c)) as Hm
    by (apply Z.mul_pos_pos; [lia | apply Z.pow_pos_nonneg; lia]).
  unfold canon. destruct (c * 2 ^ (52 - Z.log2 c)) as [|m|m]; try lia.
  replace (Z.log2 c - 52 <=? emax - prec) with true; [reflexivity |].
  symmetry. apply Z.leb_le. unfold emax, prec. lia.
Qed.

Lemma iter_xO_pow2 (m d : positive) : Zpos (PosDef.Pos.iter xO m d) = Zpos m * 2 ^ Zpos d.
Proof.
  induction d as [|d IH] using Pos.peano_ind.
  - cbn. lia.
  - change (PosDef.Pos.iter xO m (Pos.succ d)) with (Pos.iter xO m (Pos.succ d)).
    rewrite Pos.iter_succ, Pos2Z.inj_xO.
    change (Pos.iter xO m d) with (PosDef.Pos.iter xO m d). rewrite IH.
    rewrite Pos2Z.inj_succ, Z.pow_succ_r by lia. ring.
Qed.

Lemma round_exact (c k : Z) (p : positive) :
  0 < c -> c < 2 ^ 53 -> 0 <= k -> Zpos p = c * 2 ^ k ->
  binary_round prec emax false p (- k) = canon c.
Proof.
  intros Hc Hlt Hk Hp. pose proof (log2_bound c Hc Hlt) as Hd.
  unfold binary_round, shl_align.
  rewrite digits2_pos_log2, Hp, Z.log2_mul_pow2, fexp_small by lia.
  destruct (k + Z.log2 c + 1 + - k - 53 - - k) as [|n|n] eqn:En.
  - rewrite Hp. apply round_aux_exact; lia.
  - rewrite Hp. apply round_aux_exact; lia.
  - rewrite iter_xO_pow2, Hp, <- Z.mul_assoc, <- Z.pow_add_r by lia.
    replace (k + Z.pos n) with (52 - Z.log2 c) by lia.
    replace (k + Z.log2 c + 1 + - k - 53) with (- (52 - Z.log2 c)) by lia.
    apply round_aux_exact; lia.
Qed.

Lemma Z2SF_canon (c : Z) : 0 < c -> c < 2 ^ 53 -> Z2SF c = canon c.
Proof.
  intros Hc Hlt. unfold Z2SF, binary_normalize. destruct c as [|p|p]; try lia.
  apply (round_exact (Zpos p) 0); try lia.
Qed.

Lemma SFadd_canon (a b : Z) :
  0 < a -> 0 < b -> a + b < 2 ^ 53 ->
  SFadd prec emax (canon a) (canon b) = canon (a + b).
Proof.
  intros Ha Hb Hlt.
  pose proof (log2_bound a Ha ltac:(lia)) as Hda.
  pose proof (log2_bound b Hb ltac:(lia)) as Hdb.
  unfold canon at 1 2. unfold SFadd. cbn [cond_Zopp].
  set (ez := Z.min (Z.log2 a - 52) (Z.log2 b - 52)).
  assert (0 < a * 2 ^ (52 - Z.log2 a)) as Hma
    by (apply Z.mul_pos_pos; [lia | apply Z.pow_pos_nonneg; lia]).
  assert (0 < b * 2 ^ (52 - Z.log2 b)) as Hmb
    by (apply Z.mul_pos_pos; [lia | apply Z.pow_pos_nonneg; lia]).
  assert (aligned : forall c, 0 < c -> 0 <= Z.log2 c <= 52 -> ez <= Z.log2 c - 52 ->
            Zpos (fst (shl_align (Z.to_pos (c * 2 ^ (52 - Z.log2 c))) (Z.log2 c - 52) ez))
            = c * 2 ^ (- ez)).
  { intros c Hc Hd Hez.
    assert (0 < c * 2 ^ (52 - Z.log2 c)) as Hm
      by (apply Z.mul_pos_pos; [lia | apply Z.pow_pos_nonneg; lia]).
    unfold shl_align. destruct (ez - (Z.log2 c - 52)) as [|n|n] eqn:En; cbn [fst].
    - rewrite Z2Pos.id by lia. do 2 f_equal. lia.
    - lia.
    - rewrite iter_xO_pow2, Z2Pos.id, <- Z.mul_assoc, <- Z.pow_add_r by lia.
      do 2 f_equal. lia. }
  rewrite (aligned a), (aligned b) by (subst ez; lia).
  rewrite <- Z.mul_add_distr_r.
  assert (0 < (a + b) * 2 ^ (- ez)) as Hm
    by (apply Z.mul_pos_pos; [lia | apply Z.pow_pos_nonneg; subst ez; lia]).
  unfold binary_normalize.
  destruct ((a + b) * 2 ^ (- ez)) as [|p|p] eqn:Ep; try lia.
  replace (binary_round prec emax false p ez)
    with (binary_round prec emax false p (- - ez)) by (f_equal; lia).
  apply (round_exact (a + b) (- ez)); subst ez; lia.
Qed.

Lemma SFmul_canon (a b : Z) :
  0 < a -> 0 < b -> a * b < 2 ^ 53 ->
  SFmul prec emax (canon a) (canon b) = canon (a * b).
Proof.
  intros Ha Hb Hlt.
  assert (a < 2 ^ 53 /\ b < 2 ^ 53) as [Hlta Hltb] by nia.
  pose proof (log2_bound a Ha Hlta) as Hda.
  pose proof (log2_bound b Hb Hltb) as Hdb.
  pose proof (Z.log2_mul_below a b Ha Hb) as Hlow.
  pose proof (log2_bound (a * b) ltac:(nia) Hlt) as Hdab.
  assert (0 < a * 2 ^ (52 - Z.log2 a)) as Hma
    by (apply Z.mul_pos_pos; [lia | apply Z.pow_pos_nonneg; lia]).
  assert (0 < b * 2 ^ (52 - Z.log2 b)) as Hmb
    by (apply Z.mul_pos_pos; [lia | apply Z.pow_pos_nonneg; lia]).
  unfold canon at 1 2. unfold SFmul. cbn [xorb].
  rewrite Pos2Z.inj_mul, !Z2Pos.id by lia.
  replace (a * 2 ^ (52 - Z.log2 a) * (b * 2 ^ (52 - Z.log2 b)))
    with (a * b * 2 ^ (104 - Z.log2 a - Z.log2 b)).
  - replace (Z.log2 a - 52 + (Z.log2 b - 52)) with (- (104 - Z.log2 a - Z.log2 b)) by lia.
    apply round_aux_exact; lia.
  - replace (104 - Z.log2 a - Z.log2 b) with ((52 - Z.log2 a) + (52 - Z.log2 b)) by lia.
    rewrite Z.pow_add_r by lia. ring.
Qed.

Lemma canon_valid (c : Z) : 0 < c -> c < 2 ^ 53 -> valid_binary (canon c) = true.
Proof.
  intros Hc Hlt. pose proof (log2_bound c Hc Hlt) as Hd.
  assert (0 < c * 2 ^ (52 - Z.log2 c)) as Hm
    by (apply Z.mul_pos_pos; [lia | apply Z.pow_pos_nonneg; lia]).
  unfold canon, SpecFloat.valid_binary, bounded, canonical_mantissa.
  rewrite digits2_pos_log2, Z2Pos.id, Z.log2_mul_pow2, fexp_small by lia.
  apply andb_true_intro. split.
  - apply Z.eqb_eq. lia.
  - apply Z.leb_le. unfold emax, prec. lia.
Qed.

Lemma Z2SF_0 : Z2SF 0 = S754_zero false.
Proof. reflexivity. Qed.

Lemma Z2SF_valid (z : Z) : 0 <= z < 2 ^ 53 -> valid_binary (Z2SF z) = true.
Proof.
  intros Hz. destruct (Z.eq_dec z 0) as [->|Hnz]; [reflexivity |].
  rewrite Z2SF_canon by lia. apply canon_valid; lia.
Qed.

Lemma SFadd_Z2SF (a b : Z) :
  0 <= a -> 0 <= b -> a + b < 2 ^ 53 ->
  SFadd prec emax (Z2SF a) (Z2SF b) = Z2SF (a + b).
Proof.
  intros Ha Hb Hlt.
  destruct (Z.eq_dec a 0) as [->|Hna]; destruct (Z.eq_dec b 0) as [->|Hnb].
  - reflexivity.
  - rewrite Z.add_0_l, Z2SF_0, (Z2SF_canon b) by lia. reflexivity.
  - rewrite Z.add_0_r, Z2SF_0, (Z2SF_canon a) by lia. reflexivity.
  - rewrite !Z2SF_canon by lia. apply SFadd_canon; lia.
Qed.

Lemma SFmul_Z2SF (a b : Z) :
  0 <= a < 2 ^ 53 -> 0 <= b < 2 ^ 53 -> a * b < 2 ^ 53 ->
  SFmul prec emax (Z2SF a) (Z2SF b) = Z2SF (a * b).
Proof.
  intros Ha Hb Hlt.
  destruct (Z.eq_dec a 0) as [->|Hna]; destruct (Z.eq_dec b 0) as [->|Hnb].
  - reflexivity.
  - rewrite Z.mul_0_l, Z2SF_0, (Z2SF_canon b) by lia. reflexivity.
  - rewrite Z.mul_0_r, Z2SF_0, (Z2SF_canon a) by lia. reflexivity.
  - rewrite !Z2SF_canon by nia. apply SFmul_canon; lia.
Qed.

(** The conversions on a few numbers. *)
Example of_Z_examples :
  (of_Z 0 = 0 /\ of_Z 250 = 250 /\ of_Z (2 ^ 53 - 1) = 9007199254740991)%float
  /\ to_Z 250 = 250 /\ to_Z 0.5 = 0
  /\ map is_safe_natural [0; 250; 9007199254740991; 9007199254740992; 0.5; -0; -1; infinity; nan]%float
     = [true; true; true; false; false; false; false; false; false].
Proof. repeat split. Qed.

(** A number that passes [is_safe_natural] is the float of its integer part. *)
Lemma is_safe_natural_spec (x : float) :
  is_safe_natural x = true -> 0 <= to_Z x < 2 ^ 53 /\ Prim2SF x = Z2SF (to_Z x).
Proof.
  unfold is_safe_natural. intros H.
  apply andb_prop in H as [H Heq]. apply andb_prop in H as [Hge Hlt].
  apply Z.leb_le in Hge. apply Z.ltb_lt in Hlt.
  apply FloatAxioms.Leibniz.eqb_spec in Heq.
  split; [lia |]. rewrite Heq at 1. unfold of_Z.
  apply Prim2SF_SF2Prim, Z2SF_valid. lia.
Qed.

Lemma add_exact (x y : float) (a b : Z) :
  Prim2SF x = Z2SF a -> Prim2SF y = Z2SF b ->
  0 <= a -> 0 <= b -> a + b < 2 ^ 53 ->
  Prim2SF (x + y) = Z2SF (a + b).
Proof.
  intros Hx Hy Ha Hb Hlt. rewrite add_spec, Hx, Hy. now apply SFadd_Z2SF.
Qed.

Lemma mul_exact (x y : float) (a b : Z) :
  Prim2SF x = Z2SF a -> Prim2SF y = Z2SF b ->
  0 <= a < 2 ^ 53 -> 0 <= b < 2 ^ 53 -> a * b < 2 ^ 53 ->
  Prim2SF (x * y) = Z2SF (a * b).
Proof.
  intros Hx Hy Ha Hb Hlt. rewrite mul_spec, Hx, Hy. now apply SFmul_Z2SF.
Qed.

Lemma exact_amount_nonneg (item : CartItem) :
  integral item = true -> 0 <= exact_amount item.
Proof.
  unfold integral, exact_amount. intros H. apply andb_prop in H as [Hp Hq].
  apply is_safe_natural_spec in Hp as [Hp _]. apply is_safe_natural_spec in Hq as [Hq _].
  nia.
Qed.

Lemma exact_total_nonneg (array : list CartItem) :
  forallb integral array = true -> 0 <= exact_total array.
Proof.
  induction array as [|item rest IH]; simpl; [lia |].
  intros H. apply andb_prop in H as [Hitem Hrest].
  pose proof (exact_amount_nonneg item Hitem). specialize (IH Hrest). lia.
Qed.

(** The line amount of an integral item is computed without rounding. *)
Lemma lineAmount_exact (item : CartItem) :
  integral item = true -> exact_amount item < 2 ^ 53 ->
  Prim2SF (price item * quantity item)%float = Z2SF (exact_amount item).
Proof.
  unfold integral, exact_amount. intros H Hlt. apply andb_prop in H as [Hp Hq].
  apply is_safe_natural_spec in Hp as [Hp Ep]. apply is_safe_natural_spec in Hq as [Hq Eq].
  now apply mul_exact.
Qed.

(** Adding the line amounts of integral items to an exact accumulator stays
    exact, as long as the exact result is below 2^53. *)
Lemma reduce_exact (array : list CartItem) :
  forall (acc : float) (a : Z),
    Prim2SF acc = Z2SF a -> 0 <= a ->
    forallb integral array = true ->
    a + exact_total array < 2 ^ 53 ->
    Prim2SF (Js.reduce (fun sum item => sum + price item * quantity item)%float acc array)
    = Z2SF (a + exact_total array).
Proof.
  unfold Js.reduce.
  induction array as [|item rest IH]; intros acc a Hacc Ha Hall Hlt; simpl.
  - now rewrite Z.add_0_r.
  - simpl in Hall, Hlt. apply andb_prop in Hall as [Hitem Hrest].
    pose proof (exact_amount_nonneg item Hitem) as Hitem0.
    pose proof (exact_total_nonneg rest Hrest) as Hrest0.
    rewrite Z.add_assoc. apply IH; try assumption; try lia.
    apply add_exact; try assumption; try lia.
    apply lineAmount_exact; [assumption | lia].
Qed.

Lemma exact_total_Permutation (array array' : list CartItem) :
  Permutation array array' -> exact_total array = exact_total array'.
Proof. induction 1; simpl; lia. Qed.

Lemma integral_Permutation (array array' : list CartItem) :
  Permutation array array' -> forallb integral array = forallb integral array'.
Proof.
  induction 1 as [|x l l' _ IH|x y l|l l' l'' _ IH1 _ IH2]; simpl.
  - reflexivity.
  - now rewrite IH.
  - now rewrite !andb_assoc, (andb_comm (integral y)).
  - now rewrite IH1.
Qed.

End ExactFacts.

(** * Item order and the cart total *)

(** C9, as amended.  For every cart, the total computed by [processDiscount]
    is the sum of price×quantity accumulated from 0 in item order.  When every
    price and every quantity is a non-negative integer below 2^53 and the
    exact sum of price×quantity is below 2^53 as well, no addition rounds: the
    total is that exact sum, and it is the same for every permutation of the
    item list. *)
Theorem C9_total_and_item_order (Formulas : list PromotionFormula) (cart : Cart) :
  total (PromotionProcessor.processDiscount Formulas cart)
  = Spec.Sigma (map (fun item => price item * quantity item) (items cart))
  /\ (forall items' : list CartItem,
         Permutation (items cart) items' ->
         forallb Exact.integral (items cart) = true ->
         (Exact.exact_total (items cart) < 2 ^ 53)%Z ->
         total (PromotionProcessor.processDiscount Formulas cart)
         = Exact.of_Z (Exact.exact_total (items cart))
         /\ total (PromotionProcessor.processDiscount Formulas
                     {| items := items'; promoCode := promoCode cart |})
            = total (PromotionProcessor.processDiscount Formulas cart)).
Proof.
  split; [apply (processor_total Formulas cart) |].
  intros items' Hperm Hint Hlt.
  assert (exact : forall array,
             forallb Exact.integral array = true ->
             (Exact.exact_total array < 2 ^ 53)%Z ->
             Prim2SF (Js.reduce (fun sum item => sum + price item * quantity item) 0 array)
             = Exact.Z2SF (Exact.exact_total array)).
  { intros array Hall Hbound.
    apply (ExactFacts.reduce_exact array 0 0%Z); [reflexivity | lia | exact Hall | exact Hbound]. }
  split.
  - unfold Exact.of_Z. rewrite <- (exact (items cart) Hint Hlt). symmetry.
    apply SF2Prim_Prim2SF.
  - apply Prim2SF_inj. cbn [total PromotionProcessor.processDiscount items].
    rewrite (exact (items cart) Hint Hlt).
    rewrite (ExactFacts.exact_total_Permutation _ _ Hperm).
    apply exact.
    + now rewrite <- (ExactFacts.integral_Permutation _ _ Hperm).
    + now rewrite <- (ExactFacts.exact_total_Permutation _ _ Hperm).
Qed.

(** The sample cart has integer prices and quantities and an exact total of
    250: swapping its two items leaves the total unchanged. *)
Lemma C9_total_and_item_order_witness :
  total (PromotionProcessor.processDiscount Formulas cart_swapped)
  = total (PromotionProcessor.processDiscount Formulas cart).
Proof.
  exact (proj2 (proj2 (C9_total_and_item_order Formulas cart) (items cart_swapped)
                  (perm_swap hat (shoes 2) []) eq_refl eq_refl)).
Defined.

(** C9, as stated, fails: the items 0.1, 0.2, 0.3 total 0.6000000000000001 in
    that order and 0.6 in the reverse order. *)
Lemma C9_total_depends_on_item_order :
  Permutation (items cart_coins) (items cart_coins_reversed)
  /\ total (PromotionProcessor.processDiscount [] cart_coins) = 0.6000000000000001
  /\ total (PromotionProcessor.processDiscount [] cart_coins_reversed) = 0.6
  /\ ~ (forall (Formulas0 : list PromotionFormula) (cart0 : Cart) (items' : list CartItem),
           Permutation (items cart0) items' ->
           (total (PromotionProcessor.processDiscount Formulas0
                     {| items := items'; promoCode := promoCode cart0 |})
            =? total (PromotionProcessor.processDiscount Formulas0 cart0)) = true).
Proof.
  assert (Hperm : Permutation (items cart_coins) (items cart_coins_reversed))
    by apply (Permutation_rev (items cart_coins)).
  split; [exact Hperm |]. split; [reflexivity |]. split; [reflexivity |].
  intros H. specialize (H [] cart_coins (items cart_coins_reversed) Hperm).
  discriminate H.
Qed.

(** * Edge behaviour of the arithmetic *)

Module FloatEdge.

Lemma add_comm (x y : float) : x + y = y + x.
Proof.
  apply Prim2SF_inj. rewrite !add_spec.
  destruct (Prim2SF x) as [[|]| [|] | |sx mx ex];
    destruct (Prim2SF y) as [[|]| [|] | |sy my ey]; try reflexivity.
  unfold SF64add, SFadd. rewrite (Z.min_comm ey ex). f_equal. apply Z.add_comm.
Qed.

(** [0 + x] is [x], except that it turns the negative zero into the positive
    one. *)
Lemma add_0_l (x : float) : 0 + x = x \/ (x = -0 /\ 0 + x = 0).
Proof.
  destruct (Prim2SF x) as [[|]| [|] | |sx mx ex] eqn:E;
    try (left; apply Prim2SF_inj; rewrite add_spec, E; reflexivity).
  right. assert (x = -0) as -> by (apply Prim2SF_inj; rewrite E; reflexivity).
  split; reflexivity.
Qed.

Lemma add_neg0_r (x : float) : x + -0 = x.
Proof.
  apply Prim2SF_inj. rewrite add_spec. change (Prim2SF (-0)) with (S754_zero true).
  destruct (Prim2SF x) as [[|]| [|] | |sx mx ex]; reflexivity.
Qed.

(** The first two terms of a sum that starts from 0 can be exchanged. *)
Lemma add_0_swap (a b : float) : 0 + a + b = 0 + b + a.
Proof.
  destruct (add_0_l a) as [Ea|[-> Ea]]; destruct (add_0_l b) as [Eb|[-> Eb]].
  - rewrite Ea, Eb. apply add_comm.
  - rewrite Ea, Eb, add_neg0_r. symmetry. exact Ea.
  - rewrite Ea, Eb, add_neg0_r. reflexivity.
  - reflexivity.
Qed.

Lemma add_nan_l (x : float) : nan + x = nan.
Proof.
  apply Prim2SF_inj. rewrite add_spec. change (Prim2SF nan) with S754_nan. reflexivity.
Qed.

Lemma add_nan_r (x : float) : x + nan = nan.
Proof. rewrite add_comm. apply add_nan_l. Qed.

Lemma sub_nan_l (x : float) : nan - x = nan.
Proof.
  apply Prim2SF_inj. rewrite sub_spec. change (Prim2SF nan) with S754_nan. reflexivity.
Qed.

Lemma sub_nan_r (x : float) : x - nan = nan.
Proof.
  apply Prim2SF_inj. rewrite sub_spec. change (Prim2SF nan) with S754_nan.
  destruct (Prim2SF x); reflexivity.
Qed.

Lemma mul_nan_l (x : float) : nan * x = nan.
Proof.
  apply Prim2SF_inj. rewrite mul_spec. change (Prim2SF nan) with S754_nan. reflexivity.
Qed.

(** NaN passes no comparison. *)
Lemma leb_nan_l (x : float) : (nan <=? x) = false.
Proof. rewrite leb_spec. change (Prim2SF nan) with S754_nan. reflexivity. Qed.

Lemma leb_nan_r (x : float) : (x <=? nan) = false.
Proof.
  rewrite leb_spec. change (Prim2SF nan) with S754_nan.
  destruct (Prim2SF x); reflexivity.
Qed.

(** Zero does not reach a positive number. *)
Lemma geb_0_positive (t : float) : (0 <? t) = true -> Js.geb 0 t = false.
Proof.
  unfold Js.geb. rewrite ltb_spec, leb_spec. change (Prim2SF 0) with (S754_zero false).
  destruct (Prim2SF t) as [s|[|]| |[|] m e]; cbn; try discriminate; reflexivity.
Qed.

End FloatEdge.

(** * Sums that meet a NaN *)

Section ReduceEdge.

Context {A : Type} (term : A -> float).

Lemma reduce_from_nan (array : list A) :
  Js.reduce (fun sum a => sum + term a) nan array = nan.
Proof.
  unfold Js.reduce. induction array as [|a rest IH]; simpl; [reflexivity |].
  now rewrite FloatEdge.add_nan_l.
Qed.

(** One NaN term makes the whole sum NaN, whatever the other terms. *)
Lemma reduce_nan_term (array : list A) (acc : float) (a : A) :
  In a array -> term a = nan -> Js.reduce (fun sum a => sum + term a) acc array = nan.
Proof.
  intros Hin Hnan. revert acc.
  induction array as [|b rest IH]; intros acc; [destruct Hin |].
  destruct Hin as [->|Hin].
  - change (Js.reduce (fun sum a => sum + term a) (acc + term a) rest = nan).
    rewrite Hnan, FloatEdge.add_nan_r. apply reduce_from_nan.
  - apply (IH Hin).
Qed.

(** A sum over an array with one more element at the end. *)
Lemma reduce_snoc (array : list A) (a : A) :
  Js.reduce (fun sum a => sum + term a) 0 (array ++ [a])%list
  = Js.reduce (fun sum a => sum + term a) 0 array + term a.
Proof. unfold Js.reduce. now rewrite fold_left_app. Qed.

(** The first two elements can be exchanged. *)
Lemma reduce_swap_first (a b : A) (rest : list A) :
  Js.reduce (fun sum a => sum + term a) 0 (a :: b :: rest)
  = Js.reduce (fun sum a => sum + term a) 0 (b :: a :: rest).
Proof. unfold Js.reduce. simpl. now rewrite FloatEdge.add_0_swap. Qed.

(** When every term is 0 the sum is 0. *)
Lemma reduce_all_zero (array : list A) :
  Forall (fun a => term a = 0) array -> Js.reduce (fun sum a => sum + term a) 0 array = 0.
Proof.
  unfold Js.reduce. induction 1 as [|a rest Ha _ IH]; simpl; [reflexivity |].
  rewrite Ha. exact IH.
Qed.

End ReduceEdge.

(** * How the processor composes *)

Lemma discount_nan (Formulas : list PromotionFormula) (cart : Cart) (F : PromotionFormula) :
  In F Formulas -> process F cart = nan ->
  PromotionProcessor.discountCalculation Formulas cart = nan.
Proof. apply (reduce_nan_term (fun Formula => process Formula cart)). Qed.

(** X1.  A rule added at the end of the rule list adds its own result to the
    discount the other rules gave (one more rounded addition) and leaves the
    total alone. *)
Theorem X1_one_more_rule (Formulas : list PromotionFormula) (F : PromotionFormula)
    (cart : Cart) :
  PromotionProcessor.discountCalculation (Formulas ++ [F])%list cart
  = PromotionProcessor.discountCalculation Formulas cart + process F cart
  /\ total (PromotionProcessor.processDiscount (Formulas ++ [F])%list cart)
     = total (PromotionProcessor.processDiscount Formulas cart)
  /\ final (PromotionProcessor.processDiscount (Formulas ++ [F])%list cart)
     = total (PromotionProcessor.processDiscount Formulas cart)
       - (discount (PromotionProcessor.processDiscount Formulas cart) + process F cart).
Proof.
  assert (PromotionProcessor.discountCalculation (Formulas ++ [F])%list cart
          = PromotionProcessor.discountCalculation Formulas cart + process F cart) as E
    by apply (reduce_snoc (fun Formula => process Formula cart)).
  split; [exact E |]. split; [reflexivity |].
  cbn [final total discount PromotionProcessor.processDiscount]. now rewrite E.
Qed.

(** X2.  An item added at the end of the cart adds its price×quantity to the
    total the processor computes (one more rounded addition), whatever the
    rules and the promo code. *)
Theorem X2_one_more_item (Formulas : list PromotionFormula) (cart : Cart) (item : CartItem) :
  total (PromotionProcessor.processDiscount Formulas
           {| items := (items cart ++ [item])%list; promoCode := promoCode cart |})
  = total (PromotionProcessor.processDiscount Formulas cart) + price item * quantity item.
Proof. apply (reduce_snoc (fun item => price item * quantity item)). Qed.

(** X3.  When every configured rule returns 0 on a cart, the discount is 0
    and the final price is the total. *)
Theorem X3_no_rule_applies (Formulas : list PromotionFormula) (cart : Cart) :
  Forall (fun Formula => process Formula cart = 0) Formulas ->
  discount (PromotionProcessor.processDiscount Formulas cart) = 0
  /\ final (PromotionProcessor.processDiscount Formulas cart)
     = total (PromotionProcessor.processDiscount Formulas cart).
Proof.
  intros Hzero.
  assert (PromotionProcessor.discountCalculation Formulas cart = 0) as E
    by apply (reduce_all_zero (fun Formula => process Formula cart) Formulas Hzero).
  split; [exact E |].
  cbn [final total discount PromotionProcessor.processDiscount].
  rewrite E. apply FloatFacts.sub_0_r.
Qed.

(** A single hat at 50 is below the threshold, is not the product A1 and
    carries no promo code: the sample rules leave its price at 50. *)
Lemma X3_no_rule_applies_witness :
  discount (PromotionProcessor.processDiscount Formulas cart_hat_only) = 0
  /\ final (PromotionProcessor.processDiscount Formulas cart_hat_only)
     = total (PromotionProcessor.processDiscount Formulas cart_hat_only).
Proof.
  apply (X3_no_rule_applies Formulas cart_hat_only).
  repeat constructor.
Defined.

(** X4.  A single rule that returns NaN makes the discount and the final
    price NaN, whatever the other rules return and wherever the rule stands
    in the list. *)
Theorem X4_nan_rule_poisons (Formulas : list PromotionFormula) (cart : Cart)
    (F : PromotionFormula) :
  In F Formulas -> process F cart = nan ->
  discount (PromotionProcessor.processDiscount Formulas cart) = nan
  /\ final (PromotionProcessor.processDiscount Formulas cart) = nan.
Proof.
  intros Hin Hnan. cbn [final total discount PromotionProcessor.processDiscount].
  rewrite (discount_nan Formulas cart F Hin Hnan).
  split; [reflexivity | apply FloatEdge.sub_nan_r].
Qed.

(** A rule that divides zero by zero, placed between two of the sample
    rules. *)
Lemma X4_nan_rule_poisons_witness :
  discount (PromotionProcessor.processDiscount
              [ CartTotalFormula.new 150 5; Build_PromotionFormula (fun _ => 0 / 0);
                ProductFormula.new "A1" 10 ] cart) = nan
  /\ final (PromotionProcessor.processDiscount
              [ CartTotalFormula.new 150 5; Build_PromotionFormula (fun _ => 0 / 0);
                ProductFormula.new "A1" 10 ] cart) = nan.
Proof.
  apply (X4_nan_rule_poisons _ cart (Build_PromotionFormula (fun _ => 0 / 0))).
  - right. left. reflexivity.
  - reflexivity.
Defined.

(** X5.  When the promo code of the cart is the name of a member every
    object inherits ([toString], [constructor], [valueOf], ...), the
    promo-code rule returns NaN on every cart, and a processor configured with
    that rule returns a NaN discount and a NaN final price. *)
Theorem X5_inherited_promo_code (Formulas : list PromotionFormula) (cart : Cart) :
  Js.inherited (Js.string_or_empty (promoCode cart)) = true ->
  PromoCodeFormula.process cart = nan
  /\ (In PromoCodeFormula.new Formulas ->
      discount (PromotionProcessor.processDiscount Formulas cart) = nan
      /\ final (PromotionProcessor.processDiscount Formulas cart) = nan).
Proof.
  intros Hproto. pose proof (percent_inherited cart Hproto) as Hnan.
  split; [exact Hnan |]. intros Hin.
  cbn [final total discount PromotionProcessor.processDiscount].
  rewrite (discount_nan Formulas cart PromoCodeFormula.new Hin Hnan).
  split; [reflexivity | apply FloatEdge.sub_nan_r].
Qed.

(** The sample cart with the promo code [toString], priced by the sample
    rules. *)
Lemma X5_inherited_promo_code_witness :
  PromoCodeFormula.process cart_toString_code = nan
  /\ discount (PromotionProcessor.processDiscount Formulas cart_toString_code) = nan
  /\ final (PromotionProcessor.processDiscount Formulas cart_toString_code) = nan.
Proof.
  destruct (X5_inherited_promo_code Formulas cart_toString_code eq_refl) as [Hrule Hengine].
  split; [exact Hrule |]. apply Hengine. right. right. left. reflexivity.
Defined.

(** * Carts and thresholds that are not numbers *)

(** X6.  One item whose price×quantity is NaN makes the cart total NaN.  The
    threshold rule then returns 0, since NaN reaches no threshold; the
    promo-code rule returns NaN; and the final price is NaN whatever the
    rules. *)
Theorem X6_nan_line_amount (Formulas : list PromotionFormula) (cart : Cart)
    (item : CartItem) (threshold discountPercent : float) :
  In item (items cart) -> price item * quantity item = nan ->
  total (PromotionProcessor.processDiscount Formulas cart) = nan
  /\ final (PromotionProcessor.processDiscount Formulas cart) = nan
  /\ CartTotalFormula.process threshold discountPercent cart = 0
  /\ PromoCodeFormula.process cart = nan.
Proof.
  intros Hin Hnan.
  assert (Js.reduce (fun sum item => sum + price item * quantity item) 0 (items cart) = nan)
    as E by apply (reduce_nan_term (fun item => price item * quantity item) _ 0 item Hin Hnan).
  unfold CartTotalFormula.process, PromoCodeFormula.process.
  cbn [final total discount PromotionProcessor.processDiscount]. rewrite E.
  split; [reflexivity |]. split; [apply FloatEdge.sub_nan_l |]. split.
  - unfold Js.geb. now rewrite FloatEdge.leb_nan_r.
  - apply FloatEdge.mul_nan_l.
Qed.

(** The cart with a hat and a pair of shoes of unknown price. *)
Lemma X6_nan_line_amount_witness :
  total (PromotionProcessor.processDiscount Formulas cart_nan_price) = nan
  /\ final (PromotionProcessor.processDiscount Formulas cart_nan_price) = nan
  /\ CartTotalFormula.process 150 5 cart_nan_price = 0
  /\ PromoCodeFormula.process cart_nan_price = nan.
Proof.
  apply (X6_nan_line_amount Formulas cart_nan_price
           {| productId := "A1"; name := "Shoes"; price := nan; quantity := 1 |} 150 5).
  - right. left. reflexivity.
  - reflexivity.
Defined.

(** X7.  A threshold rule whose threshold is NaN never gives a discount: it
    returns 0 on every cart, whatever the percentage. *)
Theorem X7_nan_threshold (discountPercent : float) (cart : Cart) :
  CartTotalFormula.process nan discountPercent cart = 0.
Proof.
  unfold CartTotalFormula.process, Js.geb. now rewrite FloatEdge.leb_nan_l.
Qed.

(** * Order of the rules and of the items *)

(** X8.  The first two rules of a rule list can be exchanged without changing
    the discount, and the first two items of a cart without changing the
    total.  Beyond that the order counts: three per-product rules that give
    0.1, 0.2 and 0.3 add up to 0.6000000000000001 in that order and to 0.6 in
    the reverse order. *)
Theorem X8_first_two_exchange (F1 F2 : PromotionFormula) (Formulas : list PromotionFormula)
    (item1 item2 : CartItem) (rest : list CartItem) (code : option string) (cart : Cart) :
  PromotionProcessor.discountCalculation (F1 :: F2 :: Formulas) cart
  = PromotionProcessor.discountCalculation (F2 :: F1 :: Formulas) cart
  /\ total (PromotionProcessor.processDiscount Formulas
              {| items := item1 :: item2 :: rest; promoCode := code |})
     = total (PromotionProcessor.processDiscount Formulas
                {| items := item2 :: item1 :: rest; promoCode := code |})
  /\ PromotionProcessor.discountCalculation
       [ ProductFormula.new "C1" 0.1; ProductFormula.new "C2" 0.2; ProductFormula.new "C3" 0.3 ]
       cart_coins = 0.6000000000000001
  /\ PromotionProcessor.discountCalculation
       [ ProductFormula.new "C3" 0.3; ProductFormula.new "C2" 0.2; ProductFormula.new "C1" 0.1 ]
       cart_coins = 0.6.
Proof.
  split; [apply (reduce_swap_first (fun Formula => process Formula cart)) |].
  split; [apply (reduce_swap_first (fun item => price item * quantity item)) |].
  split; reflexivity.
Qed.

(** * The per-product rule and the other items *)

Lemma find_filter (predicate : CartItem -> bool) (array : list CartItem) :
  Js.find predicate array = hd_error (filter predicate array).
Proof.
  unfold Js.find. induction array as [|a rest IH]; simpl; [reflexivity |].
  destruct (predicate a); [reflexivity | exact IH].
Qed.

(** X9.  The per-product rule looks at the items with the configured id
    only: removing every other item from the cart does not change its result,
    which is 0 when no item is left and [fixedDiscount × quantity] of the
    first one otherwise. *)
Theorem X9_product_rule_filter (productId' : string) (fixedDiscount : float) (cart : Cart) :
  let matching := filter (fun item => String.eqb (productId item) productId') (items cart) in
  ProductFormula.process productId' fixedDiscount cart
  = ProductFormula.process productId' fixedDiscount
      {| items := matching; promoCode := promoCode cart |}
  /\ ProductFormula.process productId' fixedDiscount cart
     = match matching with
       | [] => 0
       | item :: _ => fixedDiscount * quantity item
       end.
Proof.
  cbv zeta. unfold ProductFormula.process. cbn [items].
  rewrite !find_filter.
  set (matching := filter _ (items cart)).
  assert (filter (fun item => String.eqb (productId item) productId') matching = matching) as ->.
  { subst matching. induction (items cart) as [|a rest IH]; simpl; [reflexivity |].
    destruct (String.eqb (productId a) productId') eqn:Ea; [| exact IH].
    simpl. rewrite Ea. now f_equal. }
  split; [reflexivity |]. destruct matching; reflexivity.
Qed.

(** * The empty cart *)

(** X10.  On a cart without items the total is 0; the per-product rule
    returns 0; the threshold rule returns 0 when its threshold is positive;
    the promo-code rule returns 0 for every code that is not the name of an
    inherited member, known or not; and a processor running the three rules
    returns 0 for total, discount and final price. *)
Theorem X10_empty_cart (code : option string) (threshold discountPercent : float)
    (productId' : string) (fixedDiscount : float) :
  let empty := {| items := []; promoCode := code |} in
  (0 <? threshold) = true ->
  Js.inherited (Js.string_or_empty code) = false ->
  CartTotalFormula.process threshold discountPercent empty = 0
  /\ ProductFormula.process productId' fixedDiscount empty = 0
  /\ PromoCodeFormula.process empty = 0
  /\ PromotionProcessor.processDiscount
       [ CartTotalFormula.new threshold discountPercent;
         ProductFormula.new productId' fixedDiscount;
         PromoCodeFormula.new ] empty
     = {| total := 0; discount := 0; final := 0 |}.
Proof.
  cbv zeta. intros Hpos Hproto.
  set (empty := {| items := []; promoCode := code |}).
  assert (CartTotalFormula.process threshold discountPercent empty = 0) as E1.
  { unfold CartTotalFormula.process. cbn [items empty Js.reduce fold_left].
    now rewrite (FloatEdge.geb_0_positive threshold Hpos). }
  assert (PromoCodeFormula.process empty = 0) as E3.
  { rewrite PromoCodeFormula_process_unfold.
    destruct (Js.own PromoCodeFormula.promoCodes (Js.string_or_empty (promoCode empty)))
      as [percent|] eqn:Hown.
    - rewrite (percent_known empty percent Hown).
      destruct (promoCodes_own _ _ Hown) as [[_ ->]|[_ ->]]; reflexivity.
    - rewrite (percent_unknown empty Hown Hproto). reflexivity. }
  split; [exact E1 |]. split; [reflexivity |]. split; [exact E3 |].
  unfold PromotionProcessor.processDiscount, PromotionProcessor.discountCalculation.
  cbn [Js.reduce fold_left process CartTotalFormula.new ProductFormula.new
       PromoCodeFormula.new items empty].
  fold empty. rewrite E1, E3. reflexivity.
Qed.

(** The empty cart with the code VIP20 and the sample rules. *)
Lemma X10_empty_cart_witness :
  PromotionProcessor.processDiscount Formulas cart_empty
  = {| total := 0; discount := 0; final := 0 |}.
Proof.
  exact (proj2 (proj2 (proj2
           (X10_empty_cart (Some "VIP20"%string) 150 5 "A1" 10 eq_refl eq_refl)))).
Defined.

(** * What the total and the two percentage rules read *)

(** X11.  The cart total, the threshold rule and the promo-code rule read
    prices and quantities only: two carts with the same sequence of (price,
    quantity) pairs have the same total and the same threshold discount,
    whatever their product ids and names, and the same promo-code discount
    when they carry the same promo code. *)
Theorem X11_ids_and_names_ignored (Formulas : list PromotionFormula) (cart1 cart2 : Cart)
    (threshold discountPercent : float) :
  map (fun item => (price item, quantity item)) (items cart1)
  = map (fun item => (price item, quantity item)) (items cart2) ->
  total (PromotionProcessor.processDiscount Formulas cart1)
  = total (PromotionProcessor.processDiscount Formulas cart2)
  /\ CartTotalFormula.process threshold discountPercent cart1
     = CartTotalFormula.process threshold discountPercent cart2
  /\ (promoCode cart1 = promoCode cart2 ->
      PromoCodeFormula.process cart1 = PromoCodeFormula.process cart2).
Proof.
  intros E.
  assert (Spec.cartTotal cart1 = Spec.cartTotal cart2) as Etotal.
  { unfold Spec.cartTotal. f_equal.
    change Spec.lineAmount
      with (fun item => (fun pq : float * float => fst pq * snd pq)
                          ((fun item => (price item, quantity item)) item)).
    rewrite <- !(map_map (fun item => (price item, quantity item))
                         (fun pq : float * float => fst pq * snd pq)).
    now rewrite E. }
  rewrite !processor_total, !CartTotalFormula_process_unfold,
    !PromoCodeFormula_process_unfold, Etotal.
  split; [reflexivity |]. split; [reflexivity |].
  intros Ecode. unfold PromoCodeFormula.percent. now rewrite Ecode.
Qed.

(** The sample cart and the same cart with other ids and names. *)
Lemma X11_ids_and_names_ignored_witness :
  total (PromotionProcessor.processDiscount Formulas cart)
  = total (PromotionProcessor.processDiscount Formulas cart_renamed)
  /\ CartTotalFormula.process 150 5 cart = CartTotalFormula.process 150 5 cart_renamed
  /\ PromoCodeFormula.process cart = PromoCodeFormula.process cart_renamed.
Proof.
  destruct (X11_ids_and_names_ignored Formulas cart cart_renamed 150 5 eq_refl)
    as (Htotal & Hthreshold & Hpromo).
  split; [exact Htotal |]. split; [exact Hthreshold |]. exact (Hpromo eq_refl).
Defined.
